(** * Bit identity and the Clifford collection policy of qiskit

    A shallow embedding of
      - [qiskit/circuit/bit.py] (class [Bit]),
      - [qiskit/circuit/library/templates/nct/template_nct_5a_4.py],
      - [qiskit/circuit/library/templates/clifford/clifford_2_1.py],
      - [qiskit/transpiler/passes/optimization/collect_cliffords.py],
    together with the statements of the specification that concern them.

    Python objects are records carrying their identity; a method that can
    raise returns a [result]; allocation threads the next free identity. *)

From Stdlib Require Import ZArith List String Ascii Bool Lia.
From Stdlib Require Import Floats.SpecFloat DecimalString HexString DecimalPos DecimalZ.
Import ListNotations.

Local Open Scope string_scope.
Local Open Scope list_scope.
Local Open Scope Z_scope.

(* ===================================================================== *)
(** ** Exceptions and results *)
(* ===================================================================== *)

(** The exception classes that the embedded code raises or catches. All of
    them derive from [Exception]. *)
Inductive exn : Type :=
| CircuitError (msg : string)
| AttributeError
| TypeError
| ValueError
| OverflowError.

Inductive result (A : Type) : Type :=
| Ok (a : A)
| Raise (e : exn).

Arguments Ok {A} a.
Arguments Raise {A} e.

Definition bind {A B : Type} (m : result A) (k : A -> result B) : result B :=
  match m with
  | Ok a => k a
  | Raise e => Raise e
  end.

Notation "x <- m ;; k" := (bind m (fun x => k))
  (at level 61, m at next level, right associativity).

(** [try: m except Exception: h] *)
Definition try_except {A : Type} (m : result A) (h : exn -> result A) : result A :=
  match m with
  | Ok a => Ok a
  | Raise e => h e
  end.

(** [try: m except AttributeError: h]; any other exception propagates. *)
Definition try_except_AttributeError {A : Type} (m : result A) (h : result A)
  : result A :=
  match m with
  | Raise AttributeError => h
  | other => other
  end.

(* ===================================================================== *)
(** ** Python values *)
(* ===================================================================== *)

(** A class defined at the top level of a module, as far as the code looks
    at it: [cls.__module__] and [cls.__name__]. *)
Record PyType : Type := mkType {
  tp_module : string;
  tp_name : string
}.

(** [str(cls)], which an f-string prints for [{type(x)}]. *)
Definition tp_repr (tp : PyType) : string :=
  ("<class '" ++ tp_module tp ++ "." ++ tp_name tp ++ "'>")%string.

(** A register, as far as [Bit] looks at it. The class [Register] lives in
    another module, which is not embedded; [Bit] reads [register.size],
    formats the register into its own display string and hashes it. Each of
    the three observations is a field, next to the identity of the register
    object. *)
Record Register : Type := mkRegister {
  reg_id : nat;
  reg_size : Z;
  reg_str : string;
  reg_hash : Z
}.

(** An instance of [Bit] or of a subclass. The class declares
    [__slots__ = {"_register", "_index", "_hash", "_repr"}].
    [_repr = None] stands for the slot [_repr] being unset, in which case
    reading it raises [AttributeError]; [_register = None] and
    [_index = None] stand for the Python value [None] stored in the slot. *)
Record Bit : Type := mkBit {
  ob_id : nat;
  ob_type : PyType;
  _register : option Register;
  _index : option Z;
  _hash : Z;
  _repr : option string
}.

#[local] Set Warnings "-register-all".

(** The values that reach [Bit.__init__] as [index] and [Bit.__eq__] as
    [other]. [VObj] is an instance of any other class, with the attributes
    it has; it has the default comparison and no conversion to [int]. *)
Inductive PyVal : Type :=
| VNone
| VBool (b : bool)
| VInt (z : Z)
| VFloat (f : spec_float)
| VStr (s : string)
| VBit (b : Bit)
| VObj (id : nat) (tp : PyType) (attrs : list (string * PyVal)).

(** [str(type(v))] *)
Definition type_str (v : PyVal) : string :=
  match v with
  | VNone => "<class 'NoneType'>"
  | VBool _ => "<class 'bool'>"
  | VInt _ => "<class 'int'>"
  | VFloat _ => "<class 'float'>"
  | VStr _ => "<class 'str'>"
  | VBit b => tp_repr (ob_type b)
  | VObj _ tp _ => tp_repr tp
  end.

(** [str(z)] for an [int]: decimal digits, a leading [-] when negative. *)
Definition str_int (z : Z) : string :=
  NilZero.string_of_int (Z.to_int z).

(* --------------------------------------------------------------------- *)
(** *** [int(x)] *)
(* --------------------------------------------------------------------- *)

(** White space that [int] strips from both ends of a string (ASCII). *)
Definition is_space (c : ascii) : bool :=
  let n := nat_of_ascii c in
  (((9 <=? n) && (n <=? 13)) || ((28 <=? n) && (n <=? 32)))%nat.

Definition digit_val (c : ascii) : option Z :=
  let n := nat_of_ascii c in
  if ((48 <=? n) && (n <=? 57))%nat then Some (Z.of_nat n - 48) else None.

Fixpoint lstrip (l : list ascii) : list ascii :=
  match l with
  | c :: l' => if is_space c then lstrip l' else l
  | [] => []
  end.

Definition strip (l : list ascii) : list ascii :=
  rev (lstrip (rev (lstrip l))).

(** Decimal digits, single underscores allowed between two digits. *)
Fixpoint parse_digits (l : list ascii) (acc : Z) (after_digit : bool) : option Z :=
  match l with
  | [] => if after_digit then Some acc else None
  | c :: l' =>
      match digit_val c with
      | Some d => parse_digits l' (10 * acc + d) true
      | None =>
          if (Ascii.eqb c "_" && after_digit)%bool
          then parse_digits l' acc false
          else None
      end
  end.

(** [int(s)] for a string in base ten; [None] is [ValueError]. Strings are
    ASCII texts here. *)
Definition int_of_str (s : string) : option Z :=
  match strip (list_ascii_of_string s) with
  | "-"%char :: l => option_map Z.opp (parse_digits l 0 false)
  | "+"%char :: l => parse_digits l 0 false
  | l => parse_digits l 0 false
  end.

(** [int(f)] for a float: truncation towards zero; infinities raise
    [OverflowError] and NaN raises [ValueError]. A finite float
    [S754_finite s m e] is [(-1)^s * m * 2^e]. *)
Definition int_of_float (f : spec_float) : result Z :=
  match f with
  | S754_zero _ => Ok 0
  | S754_infinity _ => Raise OverflowError
  | S754_nan => Raise ValueError
  | S754_finite s m e =>
      let a := if 0 <=? e then Z.pos m * 2 ^ e else Z.pos m / 2 ^ (- e) in
      Ok (if s then - a else a)
  end.

(** The builtin [int(x)]. *)
Definition py_int (v : PyVal) : result Z :=
  match v with
  | VNone => Raise TypeError
  | VBool b => Ok (if b then 1 else 0)
  | VInt z => Ok z
  | VFloat f => int_of_float f
  | VStr s =>
      match int_of_str s with
      | Some z => Ok z
      | None => Raise ValueError
      end
  | VBit _ => Raise TypeError
  | VObj _ _ _ => Raise TypeError
  end.

(* --------------------------------------------------------------------- *)
(** *** Attribute access, identity, comparison *)
(* --------------------------------------------------------------------- *)

Fixpoint assoc {A : Type} (k : string) (l : list (string * A)) : option A :=
  match l with
  | [] => None
  | (k', a) :: l' => if String.eqb k k' then Some a else assoc k l'
  end.

(** [x._repr] *)
Definition getattr_repr (x : PyVal) : result PyVal :=
  match x with
  | VBit b =>
      match _repr b with
      | Some s => Ok (VStr s)
      | None => Raise AttributeError
      end
  | VObj _ _ attrs =>
      match assoc "_repr" attrs with
      | Some v => Ok v
      | None => Raise AttributeError
      end
  | _ => Raise AttributeError
  end.

(** [register.size], where [register] may be [None]. *)
Definition getattr_size (register : option Register) : result Z :=
  match register with
  | Some r => Ok (reg_size r)
  | None => Raise AttributeError
  end.

(** [other is self], for [self] a bit. *)
Definition py_is (other : PyVal) (self : Bit) : bool :=
  match other with
  | VBit o => Nat.eqb (ob_id o) (ob_id self)
  | _ => false
  end.

(** [s == v] for a string [s]: equal strings are equal, and a string is
    equal to nothing else. *)
Definition str_eq (s : string) (v : PyVal) : bool :=
  match v with
  | VStr t => String.eqb s t
  | _ => false
  end.

(* ===================================================================== *)
(** ** The host runtime *)
(* ===================================================================== *)

(** What the interpreter contributes and the code does not fix:
    [object.__hash__] and [object.__repr__] (functions of the identity of
    the object), the hash of an [int] and of a tuple (a function of the
    hashes of its items), and [copy.deepcopy] on a register, which may
    allocate and fill the memo dictionary. *)
Class PyRuntime : Type := {
  object_hash : nat -> Z;
  object_repr : PyType -> nat -> string;
  hash_int : Z -> Z;
  hash_tuple : list Z -> Z;
  Memo : Type;
  deepcopy_register : Register -> Memo -> nat -> Register * Memo * nat
}.

(* ===================================================================== *)
(** ** [qiskit/circuit/bit.py]: class [Bit] *)
(* ===================================================================== *)

Section BitClass.

Context {rt : PyRuntime}.

Definition is_None (v : PyVal) : bool :=
  match v with
  | VNone => true
  | _ => false
  end.

(** [(register, index) == (None, None)] on the arguments of [__init__]. *)
Definition args_are_None (register : option Register) (index : PyVal) : bool :=
  match register with
  | None => is_None index
  | Some _ => false
  end.

(** [(self._register, self._index) == (None, None)] *)
Definition is_new_style (self : Bit) : bool :=
  match _register self, _index self with
  | None, None => true
  | _, _ => false
  end.

Definition msg_not_castable (index : PyVal) : string :=
  ("index needs to be castable to an int: type " ++ type_str index
   ++ " was provided")%string.

Definition msg_out_of_range (index : Z) : string :=
  ("index must be under the size of the register: " ++ str_int index
   ++ " was provided")%string.

(** [f"{self.__class__.__name__}({self._register}, {self._index})"] *)
Definition format_repr (cls : PyType) (register : Register) (index : Z) : string :=
  (tp_name cls ++ "(" ++ reg_str register ++ ", " ++ str_int index ++ ")")%string.

(** [Bit.__init__(self, register=None, index=None)], for [self] the fresh
    object of identity [self] and class [cls]. The result is the object
    with its slots filled. When [register] is [None] and [index] is not,
    [register.size] raises [AttributeError], at line 48 for a negative
    index and at line 50 otherwise. *)
Definition Bit_init (self : nat) (cls : PyType)
    (register : option Register) (index : PyVal) : result Bit :=
  if args_are_None register index then
    Ok {| ob_id := self; ob_type := cls;
          _register := None; _index := None;
          _hash := object_hash self; _repr := None |}
  else
    index <- try_except (py_int index)
               (fun _ => Raise (CircuitError (msg_not_castable index))) ;;
    index <- (if index <? 0
              then size <- getattr_size register ;; Ok (index + size)
              else Ok index) ;;
    size <- getattr_size register ;;
    if index >=? size then
      Raise (CircuitError (msg_out_of_range index))
    else
      match register with
      | None => Raise AttributeError
      | Some r =>
          Ok {| ob_id := self; ob_type := cls;
                _register := Some r; _index := Some index;
                _hash := hash_tuple [reg_hash r; hash_int index];
                _repr := Some (format_repr cls r index) |}
      end.

(** The call [cls(register, index)]: allocate, then initialise. The heap
    is the next unused identity. *)
Definition Bit_call (cls : PyType) (register : option Register) (index : PyVal)
    (heap : nat) : result Bit * nat :=
  (Bit_init heap cls register index, S heap).

(** [Bit.__repr__] *)
Definition Bit_repr (self : Bit) : result string :=
  if is_new_style self then Ok (object_repr (ob_type self) (ob_id self))
  else match _repr self with
       | Some s => Ok s
       | None => Raise AttributeError
       end.

(** [Bit.__hash__] *)
Definition Bit_hash (self : Bit) : Z := _hash self.

(** [Bit.__eq__] *)
Definition Bit_eq (self : Bit) (other : PyVal) : result bool :=
  if is_new_style self then Ok (py_is other self)
  else
    try_except_AttributeError
      (a <- getattr_repr (VBit self) ;;
       b <- getattr_repr other ;;
       match a with
       | VStr s => Ok (str_eq s b)
       | _ => Ok false
       end)
      (Ok false).

(** [self != other]: [Bit] inherits [object.__ne__], which inverts the
    result of [__eq__]. *)
Definition Bit_ne (self : Bit) (other : PyVal) : result bool :=
  b <- Bit_eq self other ;; Ok (negb b).

(** [Bit.__copy__] *)
Definition Bit_copy (self : Bit) : Bit := self.

(** [Bit.__deepcopy__(self, memo)]. [type(self).__new__(type(self))] takes
    the next identity; the four slots are then assigned in the order of the
    source, so the register is copied before [self._repr] is read. *)
Definition Bit_deepcopy (self : Bit) (memo : Memo) (heap : nat)
  : result (Bit * Memo * nat) :=
  if is_new_style self then Ok (self, memo, heap)
  else
    let bit := heap in
    let '(register, memo, heap) :=
      match _register self with
      | Some r =>
          let '(r', memo', heap') := deepcopy_register r memo (S heap) in
          (Some r', memo', heap')
      | None => (None, memo, S heap)
      end in
    match _repr self with
    | None => Raise AttributeError
    | Some s =>
        Ok ({| ob_id := bit; ob_type := ob_type self;
               _register := register; _index := _index self;
               _hash := _hash self; _repr := Some s |}, memo, heap)
    end.

End BitClass.

(* ===================================================================== *)
(** ** A runtime instance: CPython on 64 bits *)
(* ===================================================================== *)

Module CPython.

Definition wrap64 (z : Z) : Z := z mod 2 ^ 64.

(** A [Py_uhash_t] read as [Py_hash_t]. *)
Definition signed64 (z : Z) : Z :=
  let u := wrap64 z in
  if u <? 2 ^ 63 then u else u - 2 ^ 64.

Definition XXPRIME_1 : Z := 11400714785074694791.
Definition XXPRIME_2 : Z := 14029467366897019727.
Definition XXPRIME_5 : Z := 2870177450012600261.

(** Rotate left by 31 bits. *)
Definition XXROTATE (x : Z) : Z :=
  wrap64 (Z.lor (Z.shiftl x 31) (Z.shiftr x 33)).

(** The hash of a tuple from the hashes of its items. *)
Definition tuplehash (lanes : list Z) : Z :=
  let step acc lane :=
    wrap64 (XXROTATE (wrap64 (acc + wrap64 lane * XXPRIME_2)) * XXPRIME_1) in
  let acc := fold_left step lanes XXPRIME_5 in
  let acc :=
    wrap64 (acc + Z.lxor (Z.of_nat (List.length lanes)) (Z.lxor XXPRIME_5 3527539)) in
  if acc =? 2 ^ 64 - 1 then 1546275796 else signed64 acc.

(** The hash of an [int]: reduction modulo the Mersenne prime [2^61 - 1],
    keeping the sign; [-1] is reserved. *)
Definition long_hash (n : Z) : Z :=
  let x := Z.sgn n * (Z.abs n mod (2 ^ 61 - 1)) in
  if x =? -1 then -2 else x.

(** The default hash of an object: its address rotated right by 4 bits. *)
Definition pointer_hash (id : nat) : Z :=
  let y := wrap64 (Z.of_nat id) in
  let x := signed64 (Z.lor (Z.shiftr y 4) (Z.shiftl y 60)) in
  if x =? -1 then -2 else x.

(** The default [repr] of an object. *)
Definition default_repr (tp : PyType) (id : nat) : string :=
  ("<" ++ tp_module tp ++ "." ++ tp_name tp ++ " object at "
   ++ HexString.of_nat id ++ ">")%string.

(** [copy.deepcopy] of an object without a [__deepcopy__] of its own: the
    copy recorded in the memo if there is one, and otherwise a new object
    with the same state, which is then recorded. *)
Definition deepcopy (r : Register) (memo : list (nat * Register)) (heap : nat)
  : Register * list (nat * Register) * nat :=
  match find (fun e => Nat.eqb (fst e) (reg_id r)) memo with
  | Some (_, r') => (r', memo, heap)
  | None =>
      let r' := {| reg_id := heap; reg_size := reg_size r;
                   reg_str := reg_str r; reg_hash := reg_hash r |} in
      (r', (reg_id r, r') :: memo, S heap)
  end.

#[export] Instance runtime : PyRuntime := {|
  object_hash := pointer_hash;
  object_repr := default_repr;
  hash_int := long_hash;
  hash_tuple := tuplehash;
  Memo := list (nat * Register);
  deepcopy_register := deepcopy
|}.

End CPython.

(* ===================================================================== *)
(** ** Circuits and operation graphs *)
(* ===================================================================== *)

(** An operation: its [name], and its attribute [condition] when it has
    one ([None] here: the operation has no such attribute). *)
Record Operation : Type := mkOperation {
  name : string;
  condition : option PyVal
}.

(** A node of the operation graph: its identity, its operation [op] and
    its operands, each the position of a qubit in the circuit. *)
Record DAGOpNode : Type := mkNode {
  node_id : nat;
  op : Operation;
  qargs : list nat
}.

(** Modelled from the spec: the class [QuantumCircuit], which lives in a
    module that is not embedded. A circuit is a number of qubits and the instructions
    appended so far, each an operation on an ordered list of qubits; the
    gate methods append one instruction, whose operation carries the name
    of the gate and the attribute [condition], set to [None]. *)
Record QuantumCircuit : Type := mkCircuit {
  num_qubits : nat;
  data : list (Operation * list nat)
}.

Definition QuantumCircuit_new (n : nat) : QuantumCircuit :=
  {| num_qubits := n; data := [] |}.

Definition append (o : Operation) (qs : list nat) (qc : QuantumCircuit)
  : QuantumCircuit :=
  {| num_qubits := num_qubits qc; data := data qc ++ [(o, qs)] |}.

Definition gate (nm : string) : Operation :=
  {| name := nm; condition := Some VNone |}.

Definition cx (control target : nat) : QuantumCircuit -> QuantumCircuit :=
  append (gate "cx") [control; target].

Definition cz (control target : nat) : QuantumCircuit -> QuantumCircuit :=
  append (gate "cz") [control; target].

Definition x (qubit : nat) : QuantumCircuit -> QuantumCircuit :=
  append (gate "x") [qubit].

(** Modelled from the spec: the operation graph is an external
    collaborator, consumed through its ordered traversal and the operand
    list of each node. The graph of a circuit is given by its nodes in the
    forward traversal order, which for a circuit built by appending is the
    order of the instructions; node identities count from [0]. *)
Fixpoint number_nodes (from : nat) (l : list (Operation * list nat))
  : list DAGOpNode :=
  match l with
  | [] => []
  | (o, qs) :: l' =>
      {| node_id := from; op := o; qargs := qs |} :: number_nodes (S from) l'
  end.

Definition circuit_to_dag (qc : QuantumCircuit) : list DAGOpNode :=
  number_nodes 0 (data qc).

(* --------------------------------------------------------------------- *)
(** *** The templates *)
(* --------------------------------------------------------------------- *)

(** [clifford_2_1()] *)
Definition clifford_2_1 : QuantumCircuit :=
  let qc := QuantumCircuit_new 2 in
  let qc := cz 0 1 qc in
  let qc := cz 0 1 qc in
  qc.

(** [template_nct_5a_4()] *)
Definition template_nct_5a_4 : QuantumCircuit :=
  let qc := QuantumCircuit_new 2 in
  let qc := cx 0 1 qc in
  let qc := x 0 qc in
  let qc := cx 0 1 qc in
  let qc := x 0 qc in
  let qc := x 1 qc in
  qc.

(* ===================================================================== *)
(** ** The collection engine *)
(* ===================================================================== *)

(** A block: the nodes collected together, in order. *)
Definition Block : Type := list DAGOpNode.

(** The operand set of a block: the union of the operands of its nodes. *)
Definition operand_set (b : Block) : list nat := flat_map qargs b.

(** The commutation oracle, an external collaborator. *)
Class CommutationOracle : Type := {
  commutes : DAGOpNode -> DAGOpNode -> bool
}.

Section Collector.

Context {oracle : CommutationOracle}.
Variable matches : DAGOpNode -> bool.

(** A block closes: it joins the closed blocks unless it is empty. *)
Definition close (block : Block) (closed : list Block) : list Block :=
  match block with
  | [] => closed
  | _ => closed ++ [block]
  end.

(** Modelled from the spec: the traversal of the Collector (section 4.2).
    The module [collect_and_collapse] is not embedded.
    Walk the nodes in order with a candidate block and the skipped nodes.
    A matching node joins the block if it commutes with every skipped node;
    otherwise the block closes and a new one starts with this node. A node
    that does not match is skipped when commutative analysis is enabled and
    it commutes with every node of the block; otherwise the block closes.
    A block closes also at the end. Without commutative analysis nothing
    is ever skipped. *)
Fixpoint walk (commutative_analysis : bool) (nodes : list DAGOpNode)
    (block skipped : list DAGOpNode) (closed : list Block) : list Block :=
  match nodes with
  | [] => close block closed
  | n :: rest =>
      if matches n then
        if forallb (commutes n) skipped
        then walk commutative_analysis rest (block ++ [n]) skipped closed
        else walk commutative_analysis rest [n] [] (close block closed)
      else
        if commutative_analysis && forallb (commutes n) block
        then walk commutative_analysis rest block (skipped ++ [n]) closed
        else walk commutative_analysis rest [] [] (close block closed)
  end.

(** A node has an operand among [qs]. *)
Definition shares_operand (qs : list nat) (n : DAGOpNode) : bool :=
  existsb (fun q => existsb (Nat.eqb q) qs) (qargs n).

(** The operands reached from [qs] through nodes of [l] that share an
    operand, in at most [fuel] rounds. *)
Fixpoint reach (fuel : nat) (qs : list nat) (l : list DAGOpNode) : list nat :=
  match fuel with
  | O => qs
  | S fuel' =>
      reach fuel' (qs ++ operand_set (filter (shares_operand qs) l)) l
  end.

(** Modelled from the spec: [split_blocks] partitions a run into the
    connected components of the operand-overlap graph (two nodes are in the
    same component iff they share an operand, transitively). Components
    keep the order of the run and are listed by their first node. *)
Fixpoint components (fuel : nat) (l : list DAGOpNode) : list Block :=
  match fuel, l with
  | S fuel', n :: rest =>
      let qs := reach (List.length rest) (qargs n) rest in
      (n :: filter (shares_operand qs) rest)
        :: components fuel' (filter (fun m => negb (shares_operand qs m)) rest)
  | _, _ => []
  end.

Definition split_into_components (b : Block) : list Block :=
  components (List.length b) b.

(** Modelled from the spec: [split_layers] partitions a component into sets
    of mutually operand-disjoint nodes: a node opens a new layer when it
    shares an operand with the current one. *)
Fixpoint layers (l : list DAGOpNode) (current : Block) (closed : list Block)
  : list Block :=
  match l with
  | [] => close current closed
  | n :: rest =>
      if shares_operand (operand_set current) n
      then layers rest [n] (close current closed)
      else layers rest (current ++ [n]) closed
  end.

Definition split_into_layers (b : Block) : list Block := layers b [] [].

(** Modelled from the spec: the Collector. [dag] lists the nodes of the
    graph in forward traversal order; the reverse direction walks the
    mirror. Runs are split into components when [split_blocks] is set,
    blocks with fewer than [min_block_size] nodes are discarded, and the
    remaining ones are split into layers when [split_layers] is set. *)
Definition collect_using_filter_function (dag : list DAGOpNode)
    (commutative_analysis : bool)
    (split_blocks : bool) (min_block_size : Z)
    (split_layers : bool) (collect_from_back : bool) : list Block :=
  let nodes := if collect_from_back then rev dag else dag in
  let runs := walk commutative_analysis nodes [] [] [] in
  let blocks := if split_blocks then flat_map split_into_components runs
                else runs in
  let blocks :=
    filter (fun b => min_block_size <=? Z.of_nat (List.length b)) blocks in
  if split_layers then flat_map split_into_layers blocks else blocks.

End Collector.

(* ===================================================================== *)
(** ** [qiskit/transpiler/passes/optimization/collect_cliffords.py] *)
(* ===================================================================== *)

(** What the module imports from [qiskit.quantum_info]: the two tables of
    Clifford generators, dictionaries from a gate name to the function that
    appends the gate, and the constructor [Clifford], which may fail. None
    of them is embedded. *)
Class CliffordLibrary : Type := {
  Append : Type;
  _BASIS_1Q : list (string * Append);
  _BASIS_2Q : list (string * Append);
  Clifford : QuantumCircuit -> result Operation
}.

(** [d.keys()], in insertion order. *)
Definition keys {V : Type} (d : list (string * V)) : list string := map fst d.

(** [s in l] for a list of strings. *)
Definition str_in (s : string) (l : list string) : bool :=
  existsb (String.eqb s) l.

(** The keyword arguments bound by
    [partial(collect_using_filter_function, ...)]. *)
Record CollectFunction : Type := mkCollectFunction {
  filter_function : DAGOpNode -> bool;
  split_blocks : bool;
  min_block_size : Z;
  split_layers : bool;
  collect_from_back : bool
}.

(** Modelled from the spec: the pass [CollectAndCollapse] (section 4.4),
    whose class is not embedded. Its initializer stores
    the collection function, the collapse function and the flag. *)
Record CollectAndCollapse : Type := mkCollectAndCollapse {
  collect_function : CollectFunction;
  collapse_function : QuantumCircuit -> result Operation;
  do_commutative_analysis : bool
}.

(** Modelled from the spec: the collection step of the pass runs the
    collection function on the graph, with commutative analysis as the
    pass was configured. *)
Definition collect_blocks {oracle : CommutationOracle}
    (pass : CollectAndCollapse) (dag : list DAGOpNode) : list Block :=
  let f := collect_function pass in
  collect_using_filter_function (filter_function f) dag
    (do_commutative_analysis pass)
    (split_blocks f) (min_block_size f) (split_layers f) (collect_from_back f).

Section CollectCliffords.

Context {lib : CliffordLibrary}.

Definition clifford_gate_names : list string :=
  keys _BASIS_1Q ++ keys _BASIS_2Q
  ++ ["clifford"; "linear_function"; "pauli"; "permutation"].

(** [getattr(o, "condition", None)] *)
Definition getattr_condition (o : Operation) : PyVal :=
  match condition o with
  | Some v => v
  | None => VNone
  end.

(** [_is_clifford_gate(node)] *)
Definition _is_clifford_gate (node : DAGOpNode) : bool :=
  str_in (name (op node)) clifford_gate_names
  && is_None (getattr_condition (op node)).

(** [_collapse_to_clifford(circuit)] *)
Definition _collapse_to_clifford (circuit : QuantumCircuit) : result Operation :=
  Clifford circuit.

Definition default {A : Type} (given : option A) (d : A) : A :=
  match given with
  | Some a => a
  | None => d
  end.

(** [CollectCliffords.__init__]. An argument that the caller leaves out is
    [None] and takes the default of the signature. *)
Definition CollectCliffords_init
    (do_commutative_analysis : option bool)
    (split_blocks : option bool)
    (min_block_size : option Z)
    (split_layers : option bool)
    (collect_from_back : option bool) : CollectAndCollapse :=
  let do_commutative_analysis := default do_commutative_analysis false in
  let split_blocks := default split_blocks true in
  let min_block_size := default min_block_size 2 in
  let split_layers := default split_layers false in
  let collect_from_back := default collect_from_back false in
  let collect_function :=
    {| filter_function := _is_clifford_gate;
       split_blocks := split_blocks;
       min_block_size := min_block_size;
       split_layers := split_layers;
       collect_from_back := collect_from_back |} in
  let collapse_function := _collapse_to_clifford in
  {| collect_function := collect_function;
     collapse_function := collapse_function;
     do_commutative_analysis := do_commutative_analysis |}.

End CollectCliffords.

(* ===================================================================== *)
(** ** Vocabulary of the statements *)
(* ===================================================================== *)

(** The offset after normalization: a negative offset counts from the end
    of the register. *)
Definition normalized (offset size : Z) : Z :=
  if offset <? 0 then offset + size else offset.

(** The registered bit that [__init__] leaves behind on register [r] at
    the normalized offset [i]. *)
Definition registered {rt : PyRuntime}
    (self : nat) (cls : PyType) (r : Register) (i : Z) : Bit :=
  {| ob_id := self; ob_type := cls;
     _register := Some r; _index := Some i;
     _hash := hash_tuple [reg_hash r; hash_int i];
     _repr := Some (format_repr cls r i) |}.

(** The unregistered bit that [__init__] leaves behind. *)
Definition unregistered {rt : PyRuntime} (self : nat) (cls : PyType) : Bit :=
  {| ob_id := self; ob_type := cls;
     _register := None; _index := None;
     _hash := object_hash self; _repr := None |}.

(** The invariant of a bit: the slot [_repr] is set exactly when the bit
    has a register or an index. The constructor establishes it and deep
    copy keeps it. *)
Definition slots_consistent (b : Bit) : bool :=
  match _repr b with
  | Some _ => negb (is_new_style b)
  | None => is_new_style b
  end.

(** Identities are unique: two bits of the same identity are one object. *)
Definition same_object_if_same_id (b1 b2 : Bit) : Prop :=
  ob_id b1 = ob_id b2 -> b1 = b2.


(* ===================================================================== *)
(** ** Sample collaborators *)
(* ===================================================================== *)

Module Sample.

Definition Qubit : PyType :=
  {| tp_module := "qiskit.circuit.quantumregister"; tp_name := "Qubit" |}.

Definition Clbit : PyType :=
  {| tp_module := "qiskit.circuit.classicalregister"; tp_name := "Clbit" |}.

(** Two register objects that print alike and hash apart. *)
Definition reg_a : Register :=
  {| reg_id := 100; reg_size := 2;
     reg_str := "QuantumRegister(2, 'q')"; reg_hash := 11 |}.

Definition reg_b : Register :=
  {| reg_id := 101; reg_size := 2;
     reg_str := "QuantumRegister(2, 'q')"; reg_hash := 12 |}.

(** A third register object, which prints and hashes as [reg_a]. *)
Definition reg_c : Register :=
  {| reg_id := 102; reg_size := 2;
     reg_str := "QuantumRegister(2, 'q')"; reg_hash := 11 |}.

(** The floats [1.0] and [-1.5]. *)
Definition float_1_0 : spec_float := S754_finite false 1 0.
Definition float_m1_5 : spec_float := S754_finite true 3 (-1).

(** Generator tables with the usual one- and two-qubit Clifford gates; the
    append functions play no role in the collection. *)
#[export] Instance library : CliffordLibrary := {|
  Append := unit;
  _BASIS_1Q :=
    map (fun s => (s, tt))
        ["i"; "id"; "iden"; "x"; "y"; "z"; "h"; "s"; "sdg"; "sinv"; "v"; "w"];
  _BASIS_2Q := map (fun s => (s, tt)) ["cx"; "cz"; "swap"];
  Clifford := fun _ => Ok {| name := "clifford"; condition := Some VNone |}
|}.

(** The memo dictionary of a [copy.deepcopy] that starts. *)
Definition empty_memo : @Memo CPython.runtime := @nil (nat * Register).

(** An oracle under which nothing commutes. *)
#[export] Instance no_commutation : CommutationOracle := {|
  commutes := fun _ _ => false
|}.

End Sample.

(* ===================================================================== *)
(** ** Properties of [Bit] *)
(* ===================================================================== *)

Section BitProperties.

Context {rt : PyRuntime}.

(** [__init__] on a register and an [int], in closed form. *)
Lemma Bit_init_int (self : nat) (cls : PyType) (r : Register) (o : Z) :
  Bit_init self cls (Some r) (VInt o) =
  if normalized o (reg_size r) >=? reg_size r
  then Raise (CircuitError (msg_out_of_range (normalized o (reg_size r))))
  else Ok (registered self cls r (normalized o (reg_size r))).
Proof.
  unfold Bit_init, normalized, registered. cbn.
  destruct (o <? 0); reflexivity.
Qed.

(** Without a register, an [int] offset leads to [None.size]. *)
Lemma Bit_init_int_no_register (self : nat) (cls : PyType) (o : Z) :
  Bit_init self cls None (VInt o) = Raise AttributeError.
Proof.
  unfold Bit_init. cbn. destruct (o <? 0); reflexivity.
Qed.

(** A value that [int] accepts is not [None]. *)
Lemma py_int_Ok_not_None (v : PyVal) (o : Z) :
  py_int v = Ok o -> is_None v = false.
Proof. destruct v; cbn; congruence. Qed.

(** The conversion comes first: a castable offset behaves as its [int]. *)
Lemma Bit_init_castable (self : nat) (cls : PyType)
    (register : option Register) (v : PyVal) (o : Z) :
  py_int v = Ok o ->
  Bit_init self cls register v = Bit_init self cls register (VInt o).
Proof.
  intros Hint. pose proof (py_int_Ok_not_None _ _ Hint) as Hnone.
  unfold Bit_init, args_are_None.
  destruct register as [r|]; cbn; rewrite ?Hnone, Hint; reflexivity.
Qed.

(** Whatever [__init__] builds on a register is [registered] at an index
    below the size of the register. *)
Lemma Bit_init_Ok_inv (self : nat) (cls : PyType) (r : Register)
    (v : PyVal) (b : Bit) :
  Bit_init self cls (Some r) v = Ok b ->
  exists i, b = registered self cls r i /\ i < reg_size r.
Proof.
  intros H. destruct (py_int v) as [o|e] eqn:Hint.
  - rewrite (Bit_init_castable _ _ _ _ _ Hint), Bit_init_int in H.
    destruct (normalized o (reg_size r) >=? reg_size r) eqn:Hge; [discriminate|].
    injection H as <-. eexists; split; [reflexivity|]. lia.
  - unfold Bit_init in H. cbn in H. rewrite Hint in H. discriminate.
Qed.

(** A bit is built with a register or with neither argument. *)
Lemma Bit_init_None_inv (self : nat) (cls : PyType) (v : PyVal) (b : Bit) :
  Bit_init self cls None v = Ok b ->
  v = VNone /\ b = unregistered self cls.
Proof.
  intros H. destruct (py_int v) as [o|e] eqn:Hint.
  - rewrite (Bit_init_castable _ _ _ _ _ Hint), Bit_init_int_no_register in H.
    discriminate.
  - destruct v; cbn in Hint; try discriminate; unfold Bit_init in H; cbn in H;
      try rewrite Hint in H; try discriminate.
    injection H as <-. split; reflexivity.
Qed.

(** Two registered bits of equal display strings are equal. *)
Lemma Bit_eq_registered (self1 self2 : nat) (cls1 cls2 : PyType)
    (r1 r2 : Register) (i1 i2 : Z) :
  Bit_eq (registered self1 cls1 r1 i1) (VBit (registered self2 cls2 r2 i2))
  = Ok (String.eqb (format_repr cls1 r1 i1) (format_repr cls2 r2 i2)).
Proof. reflexivity. Qed.

(** Any negative offset passes the range check: after normalization it is
    below the size of the register. *)
Lemma Bit_init_negative (self : nat) (cls : PyType) (r : Register) (o : Z) :
  o < 0 ->
  Bit_init self cls (Some r) (VInt o) = Ok (registered self cls r (o + reg_size r)).
Proof.
  intros Hneg. rewrite Bit_init_int. unfold normalized.
  destruct (Z.ltb_spec o 0) as [_|Hge]; [|lia].
  destruct (Z.geb_spec (o + reg_size r) (reg_size r)) as [Hbad|_]; [lia|].
  reflexivity.
Qed.

(** A bit with a register or an index is not new-style. *)
Lemma registered_not_new_style (self : nat) (cls : PyType) (r : Register) (i : Z) :
  is_new_style (registered self cls r i) = false.
Proof. reflexivity. Qed.

(** C1 (amended). Two registered bits built by the constructor, of classes
    with the same name, on registers with the same display form and at the
    same normalized offset, are equal, whatever their identities and the
    identities of their registers; their hashes are equal when the two
    register objects hash alike. *)
Theorem registered_bits_equal_by_display
    (self1 self2 : nat) (cls1 cls2 : PyType) (r1 r2 : Register)
    (v1 v2 : PyVal) (b1 b2 : Bit) :
  Bit_init self1 cls1 (Some r1) v1 = Ok b1 ->
  Bit_init self2 cls2 (Some r2) v2 = Ok b2 ->
  tp_name cls1 = tp_name cls2 ->
  reg_str r1 = reg_str r2 ->
  _index b1 = _index b2 ->
  Bit_eq b1 (VBit b2) = Ok true /\
  (reg_hash r1 = reg_hash r2 -> Bit_hash b1 = Bit_hash b2).
Proof.
  intros H1 H2 Hname Hstr Hidx.
  apply Bit_init_Ok_inv in H1 as (i1 & -> & _).
  apply Bit_init_Ok_inv in H2 as (i2 & -> & _).
  cbn in Hidx. injection Hidx as <-.
  split.
  - rewrite Bit_eq_registered. unfold format_repr.
    rewrite Hname, Hstr, String.eqb_refl. reflexivity.
  - intros Hhash. cbn. rewrite Hhash. reflexivity.
Qed.

(** C2. With a negative offset [o] such that [o + n] is still negative on
    a register of size [n], construction succeeds and stores the negative
    offset [o + n]. *)
Theorem negative_offset_below_register_is_stored
    (self : nat) (cls : PyType) (r : Register) (o : Z) :
  o < 0 ->
  o + reg_size r < 0 ->
  exists b, Bit_init self cls (Some r) (VInt o) = Ok b /\
            _index b = Some (o + reg_size r) /\
            o + reg_size r < 0.
Proof.
  intros Hneg Hstill. exists (registered self cls r (o + reg_size r)).
  split; [apply Bit_init_negative; assumption|].
  split; [reflexivity|assumption].
Qed.


(** C4. An unregistered bit is equal to itself, and two unregistered bits
    of different identities are not equal, whatever their slots hold. *)
Theorem unregistered_equality_is_identity (u1 u2 : Bit) :
  is_new_style u1 = true ->
  is_new_style u2 = true ->
  Bit_eq u1 (VBit u1) = Ok true /\
  (ob_id u1 <> ob_id u2 ->
   Bit_eq u1 (VBit u2) = Ok false /\ Bit_ne u1 (VBit u2) = Ok true).
Proof.
  intros Hu1 _. unfold Bit_ne, Bit_eq. rewrite Hu1. cbn. split.
  - rewrite Nat.eqb_refl. reflexivity.
  - intros Hdiff.
    destruct (Nat.eqb_spec (ob_id u2) (ob_id u1)) as [Heq|_]; [congruence|].
    split; reflexivity.
Qed.

(** Two constructor calls in a row, without arguments, build two bits that
    are not equal, whatever their classes. *)
Lemma successive_unregistered_bits_differ (cls1 cls2 : PyType) (heap : nat) :
  exists (u1 u2 : Bit) (heap1 heap2 : nat),
    Bit_call cls1 None VNone heap = (Ok u1, heap1) /\
    Bit_call cls2 None VNone heap1 = (Ok u2, heap2) /\
    Bit_eq u1 (VBit u2) = Ok false /\ Bit_eq u2 (VBit u1) = Ok false.
Proof.
  exists (unregistered heap cls1), (unregistered (S heap) cls2), (S heap), (S (S heap)).
  repeat split; unfold Bit_eq; cbn -[Nat.eqb].
  - destruct (Nat.eqb_spec (S heap) heap); [lia|reflexivity].
  - destruct (Nat.eqb_spec heap (S heap)); [lia|reflexivity].
Qed.

(** C5. [__copy__] returns the bit itself; [__deepcopy__] returns an
    unregistered bit itself, and for a registered bit a new object of the
    same class whose register is the deep copy of the register and whose
    offset, hash and display string are those of the original. *)
Theorem copy_and_deepcopy (b : Bit) (memo : Memo) (heap : nat) :
  Bit_copy b = b /\
  (is_new_style b = true -> Bit_deepcopy b memo heap = Ok (b, memo, heap)) /\
  (forall (r : Register) (s : string),
     _register b = Some r ->
     _repr b = Some s ->
     (ob_id b < heap)%nat ->
     exists b' : Bit,
       Bit_deepcopy b memo heap
         = Ok (b', snd (fst (deepcopy_register r memo (S heap))),
                   snd (deepcopy_register r memo (S heap))) /\
       ob_id b' <> ob_id b /\
       ob_type b' = ob_type b /\
       _register b' = Some (fst (fst (deepcopy_register r memo (S heap)))) /\
       _index b' = _index b /\
       Bit_hash b' = Bit_hash b /\
       _repr b' = _repr b).
Proof.
  split; [reflexivity|]. split.
  - intros Hnew. unfold Bit_deepcopy. rewrite Hnew. reflexivity.
  - intros r s Hreg Hrepr Hlive. unfold Bit_deepcopy, is_new_style.
    rewrite Hreg, Hrepr.
    destruct (deepcopy_register r memo (S heap)) as [[r' memo'] heap'].
    eexists. split; [reflexivity|]. cbn.
    repeat split; try reflexivity. lia.
Qed.



End BitProperties.

(* --------------------------------------------------------------------- *)
(** *** The statements on CPython *)
(* --------------------------------------------------------------------- *)

Section OnCPython.

Import Sample.
#[local] Existing Instance CPython.runtime.

Lemma registered_bits_equal_by_display_witness :
  Bit_init 1 Qubit (Some reg_a) (VInt 0) = Ok (registered 1 Qubit reg_a 0) /\
  Bit_init 2 Qubit (Some reg_c) (VInt (-2)) = Ok (registered 2 Qubit reg_c 0) /\
  Bit_eq (registered 1 Qubit reg_a 0) (VBit (registered 2 Qubit reg_c 0)) = Ok true /\
  (reg_hash reg_a = reg_hash reg_c ->
   Bit_hash (registered 1 Qubit reg_a 0) = Bit_hash (registered 2 Qubit reg_c 0)).
Proof.
  split; [reflexivity|]. split; [reflexivity|].
  apply (registered_bits_equal_by_display 1 2 Qubit Qubit reg_a reg_c
           (VInt 0) (VInt (-2))); reflexivity.
Defined.

(** C1 (as stated) fails: two qubits built on two register objects that
    print alike and hash apart, at the same offset, are equal and have
    different hashes. *)
Lemma equal_bits_with_different_hashes :
  Bit_init 1 Qubit (Some reg_a) (VInt 0) = Ok (registered 1 Qubit reg_a 0) /\
  Bit_init 2 Qubit (Some reg_b) (VInt 0) = Ok (registered 2 Qubit reg_b 0) /\
  reg_str reg_a = reg_str reg_b /\
  _index (registered 1 Qubit reg_a 0) = _index (registered 2 Qubit reg_b 0) /\
  Bit_eq (registered 1 Qubit reg_a 0) (VBit (registered 2 Qubit reg_b 0)) = Ok true /\
  Bit_hash (registered 1 Qubit reg_a 0) <> Bit_hash (registered 2 Qubit reg_b 0).
Proof.
  repeat (split; [reflexivity|]). vm_compute. discriminate.
Qed.

Lemma negative_offset_below_register_is_stored_witness :
  -5 < 0 /\ -5 + reg_size reg_a < 0 /\
  exists b, Bit_init 7 Qubit (Some reg_a) (VInt (-5)) = Ok b /\
            _index b = Some (-5 + reg_size reg_a) /\
            -5 + reg_size reg_a < 0.
Proof.
  split; [reflexivity|]. split; [reflexivity|].
  apply (negative_offset_below_register_is_stored 7 Qubit reg_a (-5)); reflexivity.
Defined.


Lemma unregistered_equality_is_identity_witness :
  is_new_style (unregistered 1 Qubit) = true /\
  is_new_style (unregistered 2 Qubit) = true /\
  Bit_eq (unregistered 1 Qubit) (VBit (unregistered 1 Qubit)) = Ok true /\
  (ob_id (unregistered 1 Qubit) <> ob_id (unregistered 2 Qubit) ->
   Bit_eq (unregistered 1 Qubit) (VBit (unregistered 2 Qubit)) = Ok false /\
   Bit_ne (unregistered 1 Qubit) (VBit (unregistered 2 Qubit)) = Ok true).
Proof.
  split; [reflexivity|]. split; [reflexivity|].
  apply (unregistered_equality_is_identity
           (unregistered 1 Qubit) (unregistered 2 Qubit)); reflexivity.
Defined.

Lemma copy_and_deepcopy_witness :
  _register (registered 1 Qubit reg_a 0) = Some reg_a /\
  _repr (registered 1 Qubit reg_a 0) = Some "Qubit(QuantumRegister(2, 'q'), 0)" /\
  (ob_id (registered 1 Qubit reg_a 0) < 200)%nat /\
  exists b' : Bit,
    Bit_deepcopy (registered 1 Qubit reg_a 0) empty_memo 200
      = Ok (b', snd (fst (deepcopy_register reg_a empty_memo 201)),
                snd (deepcopy_register reg_a empty_memo 201)) /\
    ob_id b' <> ob_id (registered 1 Qubit reg_a 0) /\
    ob_type b' = ob_type (registered 1 Qubit reg_a 0) /\
    _register b' = Some (fst (fst (deepcopy_register reg_a empty_memo 201))) /\
    _index b' = _index (registered 1 Qubit reg_a 0) /\
    Bit_hash b' = Bit_hash (registered 1 Qubit reg_a 0) /\
    _repr b' = _repr (registered 1 Qubit reg_a 0).
Proof.
  split; [reflexivity|]. split; [reflexivity|]. split; [cbn; lia|].
  apply (proj2 (proj2 (copy_and_deepcopy (registered 1 Qubit reg_a 0) empty_memo 200))
           reg_a "Qubit(QuantumRegister(2, 'q'), 0)");
    [reflexivity|reflexivity|cbn; lia].
Defined.



(** A float and a numeric string as offsets. *)
Example float_offset :
  Bit_init 7 Qubit (Some reg_a) (VFloat float_1_0) = Ok (registered 7 Qubit reg_a 1).
Proof. reflexivity. Qed.

Example negative_float_offset :
  Bit_init 7 Qubit (Some reg_a) (VFloat float_m1_5) = Ok (registered 7 Qubit reg_a 1).
Proof. reflexivity. Qed.

Example string_offset :
  Bit_init 7 Qubit (Some reg_a) (VStr " -2 ") = Ok (registered 7 Qubit reg_a 0).
Proof. reflexivity. Qed.

Example nan_offset :
  Bit_init 7 Qubit (Some reg_a) (VFloat S754_nan)
  = Raise (CircuitError
      "index needs to be castable to an int: type <class 'float'> was provided").
Proof. reflexivity. Qed.

Example register_without_offset :
  Bit_init 7 Qubit (Some reg_a) VNone
  = Raise (CircuitError
      "index needs to be castable to an int: type <class 'NoneType'> was provided").
Proof. reflexivity. Qed.

Example offset_without_register :
  Bit_init 7 Qubit None (VInt 0) = Raise AttributeError.
Proof. reflexivity. Qed.

Example display_string :
  Bit_repr (registered 7 Qubit reg_a 1) = Ok "Qubit(QuantumRegister(2, 'q'), 1)".
Proof. reflexivity. Qed.

End OnCPython.

(* ===================================================================== *)
(** ** Properties of the Clifford collection policy *)
(* ===================================================================== *)

Section PolicyProperties.

Context {lib : CliffordLibrary}.

Lemma str_in_In (s : string) (l : list string) : str_in s l = true <-> In s l.
Proof.
  unfold str_in. rewrite existsb_exists. split.
  - intros (t & Hin & Heq). apply String.eqb_eq in Heq. subst t. exact Hin.
  - intros Hin. exists s. split; [exact Hin|apply String.eqb_refl].
Qed.

Lemma is_None_VNone (v : PyVal) : is_None v = true <-> v = VNone.
Proof. destruct v; cbn; split; congruence. Qed.

(** C6. The predicate accepts a node exactly when the name of its
    operation is a key of one of the two generator tables or one of the
    four extra names, and [getattr(op, "condition", None)] is [None];
    otherwise it rejects the node. *)
Theorem is_clifford_gate_spec (node : DAGOpNode) :
  (_is_clifford_gate node = true <->
   (In (name (op node)) (keys _BASIS_1Q) \/
    In (name (op node)) (keys _BASIS_2Q) \/
    In (name (op node)) ["clifford"; "linear_function"; "pauli"; "permutation"]) /\
   getattr_condition (op node) = VNone) /\
  (_is_clifford_gate node = false <->
   ~ (In (name (op node)) (keys _BASIS_1Q) \/
      In (name (op node)) (keys _BASIS_2Q) \/
      In (name (op node)) ["clifford"; "linear_function"; "pauli"; "permutation"]) \/
   getattr_condition (op node) <> VNone).
Proof.
  assert (Hacc : _is_clifford_gate node = true <->
            (In (name (op node)) (keys _BASIS_1Q) \/
             In (name (op node)) (keys _BASIS_2Q) \/
             In (name (op node))
                ["clifford"; "linear_function"; "pauli"; "permutation"]) /\
            getattr_condition (op node) = VNone).
  { unfold _is_clifford_gate, clifford_gate_names.
    rewrite andb_true_iff, str_in_In, is_None_VNone, !in_app_iff. reflexivity. }
  split; [exact Hacc|].
  rewrite <- not_true_iff_false, Hacc.
  split.
  - intros Hnot.
    destruct (str_in (name (op node)) clifford_gate_names) eqn:Hin.
    + right. intros Hcond. apply Hnot. split; [|exact Hcond].
      apply str_in_In in Hin. unfold clifford_gate_names in Hin.
      rewrite !in_app_iff in Hin. exact Hin.
    + left. intros Hor. apply not_true_iff_false in Hin. apply Hin.
      apply str_in_In. unfold clifford_gate_names. rewrite !in_app_iff. exact Hor.
  - intros [Hno|Hno] [Hin Hcond]; [exact (Hno Hin)|exact (Hno Hcond)].
Qed.

(** C8. Without arguments the pass is built with [split_blocks=True],
    [min_block_size=2], [split_layers=False], [collect_from_back=False]
    and commutative analysis disabled; the four collection settings are
    bound, as they are, as keyword arguments of the collection function,
    next to the Clifford predicate, and so are the values that a caller
    gives. *)
Theorem CollectCliffords_defaults :
  CollectCliffords_init None None None None None =
    {| collect_function :=
         {| filter_function := _is_clifford_gate;
            split_blocks := true;
            min_block_size := 2;
            split_layers := false;
            collect_from_back := false |};
       collapse_function := _collapse_to_clifford;
       do_commutative_analysis := false |} /\
  (forall (ca sb sl back : bool) (m : Z),
     CollectCliffords_init (Some ca) (Some sb) (Some m) (Some sl) (Some back) =
       {| collect_function :=
            {| filter_function := _is_clifford_gate;
               split_blocks := sb;
               min_block_size := m;
               split_layers := sl;
               collect_from_back := back |};
          collapse_function := _collapse_to_clifford;
          do_commutative_analysis := ca |}).
Proof. split; reflexivity. Qed.

Section Engine.

Context {oracle : CommutationOracle}.
Variable matches : DAGOpNode -> bool.

(** Nodes that all match, with nothing skipped, extend the open block to
    the end of the traversal. *)
Lemma walk_all_match (ca : bool) (nodes block : list DAGOpNode)
    (closed : list Block) :
  forallb matches nodes = true ->
  walk matches ca nodes block [] closed = close (block ++ nodes) closed.
Proof.
  revert block. induction nodes as [|n rest IH]; intros block Hall; cbn.
  - rewrite app_nil_r. reflexivity.
  - cbn in Hall. apply andb_true_iff in Hall as [Hn Hrest].
    rewrite Hn, IH by exact Hrest. rewrite <- app_assoc. reflexivity.
Qed.

Lemma close_all_match (block : Block) (closed : list Block) :
  Forall (fun n => matches n = true) block ->
  Forall (Forall (fun n => matches n = true)) closed ->
  Forall (Forall (fun n => matches n = true)) (close block closed).
Proof.
  intros Hb Hc. destruct block as [|n block]; cbn; [exact Hc|].
  apply Forall_app. split; [exact Hc|]. constructor; [exact Hb|constructor].
Qed.

(** Whatever the toggles, the traversal only ever puts matching nodes into
    a block. *)
Lemma walk_blocks_match (ca : bool) (nodes block skipped : list DAGOpNode)
    (closed : list Block) :
  Forall (fun n => matches n = true) block ->
  Forall (Forall (fun n => matches n = true)) closed ->
  Forall (Forall (fun n => matches n = true))
         (walk matches ca nodes block skipped closed).
Proof.
  revert block skipped closed.
  induction nodes as [|n rest IH]; intros block skipped closed Hb Hc; cbn.
  - apply close_all_match; assumption.
  - destruct (matches n) eqn:Hn.
    + destruct (forallb (commutes n) skipped).
      * apply IH; [|exact Hc]. apply Forall_app. split; [exact Hb|].
        constructor; [exact Hn|constructor].
      * apply IH; [constructor; [exact Hn|constructor]|].
        apply close_all_match; assumption.
    + destruct (ca && forallb (commutes n) block).
      * apply IH; assumption.
      * apply IH; [constructor|]. apply close_all_match; assumption.
Qed.

End Engine.

(** C7. [template_nct_5a_4] is the circuit on two qubits with the five
    operations CX(q0,q1), X(q0), CX(q0,q1), X(q0), X(q1), in this order.
    With [x] and [cx] among the generator names, each of the five nodes
    satisfies the Clifford predicate, and the pass with [min_block_size=2]
    collects them as one block of five nodes. *)
Theorem template_nct_5a_4_is_one_block (oracle : CommutationOracle) :
  In "x" (keys _BASIS_1Q) ->
  In "cx" (keys _BASIS_2Q) ->
  num_qubits template_nct_5a_4 = 2%nat /\
  data template_nct_5a_4 =
    [ (gate "cx", [0; 1]%nat); (gate "x", [0]%nat); (gate "cx", [0; 1]%nat);
      (gate "x", [0]%nat); (gate "x", [1]%nat) ] /\
  Forall (fun node => _is_clifford_gate node = true /\
                      str_in (name (op node)) clifford_gate_names = true /\
                      getattr_condition (op node) = VNone)
         (circuit_to_dag template_nct_5a_4) /\
  collect_blocks (CollectCliffords_init None None (Some 2) None None)
                 (circuit_to_dag template_nct_5a_4)
    = [circuit_to_dag template_nct_5a_4] /\
  List.length (circuit_to_dag template_nct_5a_4) = 5%nat.
Proof.
  intros Hx Hcx.
  assert (Hnx : str_in "x" clifford_gate_names = true).
  { apply str_in_In. unfold clifford_gate_names. rewrite !in_app_iff. tauto. }
  assert (Hncx : str_in "cx" clifford_gate_names = true).
  { apply str_in_In. unfold clifford_gate_names. rewrite !in_app_iff. tauto. }
  assert (Hall : Forall (fun node => _is_clifford_gate node = true /\
                      str_in (name (op node)) clifford_gate_names = true /\
                      getattr_condition (op node) = VNone)
                   (circuit_to_dag template_nct_5a_4)).
  { repeat constructor; unfold _is_clifford_gate; cbn;
      rewrite ?Hnx, ?Hncx; reflexivity. }
  repeat split; try reflexivity; try exact Hall.
  unfold collect_blocks, collect_using_filter_function. cbn -[walk circuit_to_dag].
  rewrite walk_all_match.
  - reflexivity.
  - apply forallb_forall. intros n Hn.
    rewrite Forall_forall in Hall. apply (Hall n Hn).
Qed.

End PolicyProperties.

Section OnSampleLibrary.

Import Sample.

Lemma is_clifford_gate_spec_witness :
  _is_clifford_gate {| node_id := 0; op := gate "cx"; qargs := [0; 1]%nat |} = true /\
  _is_clifford_gate
    {| node_id := 1; op := {| name := "x"; condition := Some (VInt 1) |};
       qargs := [0%nat] |} = false /\
  _is_clifford_gate {| node_id := 2; op := gate "t"; qargs := [0%nat] |} = false.
Proof.
  split; [|split].
  - apply (proj1 (is_clifford_gate_spec _)). cbn. split; [|reflexivity].
    right. left. left. reflexivity.
  - apply (proj2 (is_clifford_gate_spec _)). right. discriminate.
  - apply (proj2 (is_clifford_gate_spec _)). left. cbn.
    intuition discriminate.
Defined.

Lemma template_nct_5a_4_is_one_block_witness :
  In "x" (keys _BASIS_1Q) /\
  In "cx" (keys _BASIS_2Q) /\
  collect_blocks (CollectCliffords_init None None (Some 2) None None)
                 (circuit_to_dag template_nct_5a_4)
    = [circuit_to_dag template_nct_5a_4] /\
  List.length (circuit_to_dag template_nct_5a_4) = 5%nat.
Proof.
  assert (Hx : In "x" (keys _BASIS_1Q)) by (cbn; tauto).
  assert (Hcx : In "cx" (keys _BASIS_2Q)) by (cbn; tauto).
  split; [exact Hx|]. split; [exact Hcx|].
  apply (template_nct_5a_4_is_one_block no_commutation Hx Hcx).
Defined.

(** The scenario of [clifford_2_1]: two CZ gates, one block of two. *)
Example clifford_2_1_is_one_block :
  collect_blocks (CollectCliffords_init None None None None None)
                 (circuit_to_dag clifford_2_1)
  = [circuit_to_dag clifford_2_1].
Proof. reflexivity. Qed.

(** A gate on a third qubit is split off and, alone, discarded. *)
Example disjoint_gate_is_split_off :
  collect_blocks (CollectCliffords_init None None None None None)
                 (circuit_to_dag (x 2 (cx 0 1 (x 0 (QuantumCircuit_new 3)))))
  = [circuit_to_dag (cx 0 1 (x 0 (QuantumCircuit_new 3)))].
Proof. reflexivity. Qed.

End OnSampleLibrary.

(* ===================================================================== *)
(** ** Further properties of [Bit] *)
(* ===================================================================== *)

Section DisplayStrings.

Lemma append_inv_head (p s1 s2 : string) :
  (p ++ s1 = p ++ s2)%string -> s1 = s2.
Proof.
  induction p as [|c p IH]; cbn; intros H; [exact H|].
  injection H as H. exact (IH H).
Qed.

Lemma length_append (s t : string) :
  String.length (s ++ t) = (String.length s + String.length t)%nat.
Proof. induction s as [|c s IH]; cbn; [reflexivity|rewrite IH; reflexivity]. Qed.

Lemma append_inv_tail (s1 s2 t : string) :
  (s1 ++ t = s2 ++ t)%string -> s1 = s2.
Proof.
  revert s2. induction s1 as [|c s1 IH]; intros [|d s2] H; cbn in H.
  - reflexivity.
  - apply (f_equal String.length) in H. cbn in H. rewrite length_append in H. lia.
  - apply (f_equal String.length) in H. cbn in H. rewrite length_append in H. lia.
  - injection H as -> H. f_equal. exact (IH _ H).
Qed.

(** The decimal rendering of an [int] tells the [int]. *)
Lemma str_int_inj (z1 z2 : Z) : str_int z1 = str_int z2 -> z1 = z2.
Proof.
  unfold str_int. intros H.
  assert (Hnn : forall z, Z.to_int z <> Decimal.Pos Decimal.Nil /\
                          Z.to_int z <> Decimal.Neg Decimal.Nil).
  { intros [|p|p]; cbn; split; try discriminate;
      intros [= E]; exact (Unsigned.to_uint_nonnil p E). }
  apply (f_equal NilZero.int_of_string) in H.
  rewrite !NilZero.isi in H by apply Hnn.
  injection H as H. apply DecimalZ.to_int_inj. exact H.
Qed.

(** For one class name and one register display, the display string of a
    bit tells its offset. *)
Lemma format_repr_inj (cls1 cls2 : PyType) (r1 r2 : Register) (i1 i2 : Z) :
  tp_name cls1 = tp_name cls2 ->
  reg_str r1 = reg_str r2 ->
  format_repr cls1 r1 i1 = format_repr cls2 r2 i2 ->
  i1 = i2.
Proof.
  unfold format_repr. intros -> -> H.
  repeat apply append_inv_head in H.
  apply append_inv_tail in H. apply str_int_inj. exact H.
Qed.

End DisplayStrings.

Section FurtherBitProperties.

Context {rt : PyRuntime}.


(** X2. Offsets from [-n] to [n - 1] address the register as a Python
    sequence: construction succeeds and the stored offset is [o mod n],
    between [0] and [n - 1]. *)
Theorem Bit_init_in_range
    (self : nat) (cls : PyType) (r : Register) (o : Z) :
  - reg_size r <= o < reg_size r ->
  Bit_init self cls (Some r) (VInt o)
    = Ok (registered self cls r (o mod reg_size r)) /\
  0 <= o mod reg_size r < reg_size r.
Proof.
  intros Hrange.
  assert (Hnorm : normalized o (reg_size r) = o mod reg_size r).
  { unfold normalized. destruct (Z.ltb_spec o 0).
    - apply (Z.mod_unique _ _ (-1)); lia.
    - symmetry. apply Z.mod_small. lia. }
  split; [|apply Z.mod_pos_bound; lia].
  rewrite Bit_init_int, Hnorm.
  destruct (Z.geb_spec (o mod reg_size r) (reg_size r)) as [Hbad|_];
    [|reflexivity].
  pose proof (Z.mod_pos_bound o (reg_size r)). lia.
Qed.


(** X4. What the constructor returns: the object of the identity and class
    it was called on, which is either the unregistered bit, built from no
    argument at all, or a registered bit whose stored offset is the
    normalized offset and lies below the size of its register. *)
Theorem Bit_init_Ok_shape
    (self : nat) (cls : PyType) (register : option Register) (v : PyVal)
    (b : Bit) :
  Bit_init self cls register v = Ok b ->
  ob_id b = self /\ ob_type b = cls /\ slots_consistent b = true /\
  ((register = None /\ v = VNone /\ b = unregistered self cls) \/
   (exists (r : Register) (o : Z),
      register = Some r /\ py_int v = Ok o /\
      b = registered self cls r (normalized o (reg_size r)) /\
      normalized o (reg_size r) < reg_size r)).
Proof.
  intros H. destruct register as [r|].
  - destruct (py_int v) as [o|e] eqn:Hint.
    + rewrite (Bit_init_castable _ _ _ _ _ Hint), Bit_init_int in H.
      destruct (Z.geb_spec (normalized o (reg_size r)) (reg_size r)) as [|Hlt];
        [discriminate|].
      injection H as <-. repeat split. right. exists r, o. repeat split.
      exact Hlt.
    + unfold Bit_init in H. cbn in H. rewrite Hint in H. discriminate.
  - apply Bit_init_None_inv in H as [-> ->]. repeat split. left. repeat split.
Qed.

(** The invariant, unfolded. *)
Lemma slots_consistent_cases (b : Bit) :
  slots_consistent b = true ->
  (is_new_style b = true /\ _repr b = None) \/
  (is_new_style b = false /\ exists s, _repr b = Some s).
Proof.
  unfold slots_consistent. destruct (_repr b) as [s|], (is_new_style b);
    try discriminate; intros _.
  - right. split; [reflexivity|]. exists s. reflexivity.
  - left. split; reflexivity.
Qed.

(** Equality of a bit that has its display string [s]. *)
Lemma Bit_eq_with_display (b : Bit) (s : string) (other : PyVal) :
  is_new_style b = false ->
  _repr b = Some s ->
  Bit_eq b other =
  match getattr_repr other with
  | Ok v => Ok (str_eq s v)
  | Raise AttributeError => Ok false
  | Raise e => Raise e
  end.
Proof.
  intros Hreg Hrepr. unfold Bit_eq. rewrite Hreg. cbn. rewrite Hrepr. cbn.
  destruct (getattr_repr other) as [w|[]]; reflexivity.
Qed.

(** X5. [repr] returns on every bit that has its display string, and two
    registered bits built by the constructor are equal exactly when their
    [repr] is the same. *)
Theorem Bit_eq_iff_same_repr
    (self1 self2 : nat) (cls1 cls2 : PyType) (r1 r2 : Register)
    (v1 v2 : PyVal) (b1 b2 : Bit) :
  Bit_init self1 cls1 (Some r1) v1 = Ok b1 ->
  Bit_init self2 cls2 (Some r2) v2 = Ok b2 ->
  (exists s1 s2, Bit_repr b1 = Ok s1 /\ Bit_repr b2 = Ok s2) /\
  (Bit_eq b1 (VBit b2) = Ok true <-> Bit_repr b1 = Bit_repr b2).
Proof.
  intros H1 H2.
  apply Bit_init_Ok_inv in H1 as (i1 & -> & _).
  apply Bit_init_Ok_inv in H2 as (i2 & -> & _).
  split; [eexists; eexists; split; reflexivity|].
  rewrite Bit_eq_registered. cbn. split.
  - intros [= Heq]. apply String.eqb_eq in Heq. rewrite Heq. reflexivity.
  - intros [= Heq]. rewrite Heq, String.eqb_refl. reflexivity.
Qed.

(** Equality of an unregistered bit. *)
Lemma Bit_eq_new_style (b : Bit) (other : PyVal) :
  is_new_style b = true -> Bit_eq b other = Ok (py_is other b).
Proof. intros H. unfold Bit_eq. rewrite H. reflexivity. Qed.

(** Two consistent bits that are equal are one object, or are both
    registered with the same display string. *)
Lemma Bit_eq_true_inv (b1 b2 : Bit) :
  slots_consistent b1 = true ->
  slots_consistent b2 = true ->
  same_object_if_same_id b1 b2 ->
  Bit_eq b1 (VBit b2) = Ok true ->
  b1 = b2 \/
  (is_new_style b1 = false /\ is_new_style b2 = false /\
   exists s, _repr b1 = Some s /\ _repr b2 = Some s).
Proof.
  intros W1 W2 U H.
  apply slots_consistent_cases in W1 as [(N1 & R1)|(N1 & s1 & R1)].
  - rewrite (Bit_eq_new_style _ _ N1) in H. cbn in H. injection H as H.
    apply Nat.eqb_eq in H. left. apply U. symmetry. exact H.
  - rewrite (Bit_eq_with_display _ _ _ N1 R1) in H. cbn in H.
    apply slots_consistent_cases in W2 as [(N2 & R2)|(N2 & s2 & R2)];
      rewrite R2 in H; [discriminate|].
    cbn in H. injection H as H. apply String.eqb_eq in H. subst s2.
    right. repeat split; try assumption. exists s1. split; assumption.
Qed.

(** X6. On bits whose slots are consistent and whose identities are
    unique, [==] is reflexive, symmetric and transitive. *)
Theorem Bit_eq_equivalence (b1 b2 b3 : Bit) :
  slots_consistent b1 = true ->
  slots_consistent b2 = true ->
  slots_consistent b3 = true ->
  same_object_if_same_id b1 b2 ->
  same_object_if_same_id b2 b3 ->
  Bit_eq b1 (VBit b1) = Ok true /\
  Bit_eq b1 (VBit b2) = Bit_eq b2 (VBit b1) /\
  (Bit_eq b1 (VBit b2) = Ok true ->
   Bit_eq b2 (VBit b3) = Ok true ->
   Bit_eq b1 (VBit b3) = Ok true).
Proof.
  intros W1 W2 W3 U12 U23. split; [|split].
  - apply slots_consistent_cases in W1 as [(N1 & R1)|(N1 & s1 & R1)].
    + rewrite (Bit_eq_new_style _ _ N1). cbn. rewrite Nat.eqb_refl. reflexivity.
    + rewrite (Bit_eq_with_display _ _ _ N1 R1). cbn. rewrite R1. cbn.
      rewrite String.eqb_refl. reflexivity.
  - apply slots_consistent_cases in W1 as [(N1 & R1)|(N1 & s1 & R1)];
    apply slots_consistent_cases in W2 as [(N2 & R2)|(N2 & s2 & R2)];
    rewrite ?(Bit_eq_new_style _ _ N1), ?(Bit_eq_new_style _ _ N2),
            ?(Bit_eq_with_display _ _ _ N1 R1), ?(Bit_eq_with_display _ _ _ N2 R2);
    cbn -[Nat.eqb]; rewrite ?R1, ?R2; cbn -[Nat.eqb].
    + rewrite Nat.eqb_sym. reflexivity.
    + destruct (Nat.eqb_spec (ob_id b2) (ob_id b1)) as [E|_]; [|reflexivity].
      symmetry in E. apply U12 in E. congruence.
    + destruct (Nat.eqb_spec (ob_id b1) (ob_id b2)) as [E|_]; [|reflexivity].
      apply U12 in E. congruence.
    + rewrite String.eqb_sym. reflexivity.
  - intros E12 E23.
    apply (Bit_eq_true_inv _ _ W1 W2 U12) in E12 as [->|(N1 & _ & s & R1 & R2)];
      [exact E23|].
    apply (Bit_eq_true_inv _ _ W2 W3 U23) in E23 as [<-|(_ & _ & t & R2' & R3)].
    + rewrite (Bit_eq_with_display _ _ _ N1 R1). cbn. rewrite R2. cbn.
      rewrite String.eqb_refl. reflexivity.
    + rewrite (Bit_eq_with_display _ _ _ N1 R1). cbn. rewrite R3. cbn.
      assert (s = t) by congruence. subst t. rewrite String.eqb_refl. reflexivity.
Qed.

End FurtherBitProperties.

Section CopiesAndPositions.

Context {rt : PyRuntime}.

(** X7. Deep copy of a bit whose slots are consistent returns, and the copy
    is equal to the original in both directions, has the same hash and the
    same [repr], and has consistent slots again. *)
Theorem Bit_deepcopy_equal_to_original (b : Bit) (memo : Memo) (heap : nat) :
  slots_consistent b = true ->
  exists (b' : Bit) (memo' : Memo) (heap' : nat),
    Bit_deepcopy b memo heap = Ok (b', memo', heap') /\
    Bit_eq b' (VBit b) = Ok true /\
    Bit_eq b (VBit b') = Ok true /\
    Bit_hash b' = Bit_hash b /\
    Bit_repr b' = Bit_repr b /\
    slots_consistent b' = true.
Proof.
  intros W. pose proof W as W'.
  apply slots_consistent_cases in W' as [(N & R)|(N & s & R)].
  - exists b, memo, heap. unfold Bit_deepcopy. rewrite N.
    rewrite (Bit_eq_new_style _ _ N). cbn. rewrite Nat.eqb_refl.
    repeat split. exact W.
  - unfold Bit_deepcopy. rewrite N, R.
    assert (Hshape : exists reg memo' heap',
              (let '(register, memo0, heap0) :=
                 match _register b with
                 | Some r =>
                     let '(r', memo', heap') := deepcopy_register r memo (S heap) in
                     (Some r', memo', heap')
                 | None => (None, memo, S heap)
                 end in
               Ok ({| ob_id := heap; ob_type := ob_type b;
                      _register := register; _index := _index b;
                      _hash := _hash b; _repr := Some s |}, memo0, heap0))
              = Ok ({| ob_id := heap; ob_type := ob_type b;
                       _register := reg; _index := _index b;
                       _hash := _hash b; _repr := Some s |}, memo', heap') /\
              (reg = None -> _register b = None)).
    { destruct (_register b) as [r|].
      - destruct (deepcopy_register r memo (S heap)) as [[r' memo'] heap'].
        exists (Some r'), memo', heap'. split; [reflexivity|discriminate].
      - exists None, memo, (S heap). split; reflexivity. }
    destruct Hshape as (reg & memo' & heap' & -> & Hreg).
    assert (N' : is_new_style {| ob_id := heap; ob_type := ob_type b;
                                 _register := reg; _index := _index b;
                                 _hash := _hash b; _repr := Some s |} = false).
    { unfold is_new_style in *. cbn. destruct reg as [r'|]; [reflexivity|].
      rewrite (Hreg eq_refl) in N. exact N. }
    eexists. exists memo', heap'. split; [reflexivity|].
    split; [|split; [|split; [|split]]].
    + rewrite (Bit_eq_with_display _ s _ N' eq_refl). cbn. rewrite R. cbn.
      rewrite String.eqb_refl. reflexivity.
    + rewrite (Bit_eq_with_display _ s _ N R). cbn.
      rewrite String.eqb_refl. reflexivity.
    + reflexivity.
    + unfold Bit_repr. rewrite N', N, R. reflexivity.
    + unfold slots_consistent. rewrite N'. reflexivity.
Qed.

(** X8. Two registered bits built by the constructor, of classes with the
    same name and on registers with the same display, are equal exactly
    when their stored offsets are the same: different positions of a
    register are different bits. *)
Theorem Bit_eq_iff_same_index
    (self1 self2 : nat) (cls1 cls2 : PyType) (r1 r2 : Register)
    (v1 v2 : PyVal) (b1 b2 : Bit) :
  Bit_init self1 cls1 (Some r1) v1 = Ok b1 ->
  Bit_init self2 cls2 (Some r2) v2 = Ok b2 ->
  tp_name cls1 = tp_name cls2 ->
  reg_str r1 = reg_str r2 ->
  (Bit_eq b1 (VBit b2) = Ok true <-> _index b1 = _index b2) /\
  (_index b1 <> _index b2 -> Bit_eq b1 (VBit b2) = Ok false).
Proof.
  intros H1 H2 Hname Hstr.
  apply Bit_init_Ok_inv in H1 as (i1 & -> & _).
  apply Bit_init_Ok_inv in H2 as (i2 & -> & _).
  rewrite Bit_eq_registered. cbn.
  destruct (String.eqb_spec (format_repr cls1 r1 i1) (format_repr cls2 r2 i2))
    as [Heq|Hne].
  - apply (format_repr_inj _ _ _ _ _ _ Hname Hstr) in Heq. subst i2.
    split; [split; reflexivity|]. intros Hdiff. congruence.
  - split; [|reflexivity]. split; [discriminate|].
    intros [= <-]. exfalso. apply Hne. unfold format_repr.
    rewrite Hname, Hstr. reflexivity.
Qed.

(** X9. The hash contract: two registered bits built by the constructor, of
    classes with the same name and on registers that print alike and hash
    alike (one register, for instance), have the same hash whenever they
    are equal. *)
Theorem Bit_hash_contract
    (self1 self2 : nat) (cls1 cls2 : PyType) (r1 r2 : Register)
    (v1 v2 : PyVal) (b1 b2 : Bit) :
  Bit_init self1 cls1 (Some r1) v1 = Ok b1 ->
  Bit_init self2 cls2 (Some r2) v2 = Ok b2 ->
  tp_name cls1 = tp_name cls2 ->
  reg_str r1 = reg_str r2 ->
  reg_hash r1 = reg_hash r2 ->
  Bit_eq b1 (VBit b2) = Ok true ->
  Bit_hash b1 = Bit_hash b2.
Proof.
  intros H1 H2 Hname Hstr Hhash Heq.
  apply Bit_init_Ok_inv in H1 as (i1 & -> & _).
  apply Bit_init_Ok_inv in H2 as (i2 & -> & _).
  rewrite Bit_eq_registered in Heq. injection Heq as Heq.
  apply String.eqb_eq in Heq.
  apply (format_repr_inj _ _ _ _ _ _ Hname Hstr) in Heq. subst i2.
  cbn. rewrite Hhash. reflexivity.
Qed.

(** X10. A registered bit with its display string [s] is equal to any
    object, [Bit] or not, whose attribute [_repr] is a string, exactly when
    that string is [s]; the identity and the class of the object play no
    role. *)
Theorem Bit_eq_object_with_repr
    (b : Bit) (s t : string) (id : nat) (tp : PyType)
    (attrs : list (string * PyVal)) :
  is_new_style b = false ->
  _repr b = Some s ->
  assoc "_repr" attrs = Some (VStr t) ->
  Bit_eq b (VObj id tp attrs) = Ok (String.eqb s t) /\
  (Bit_eq b (VObj id tp attrs) = Ok true <-> s = t).
Proof.
  intros N R Hattr.
  rewrite (Bit_eq_with_display _ _ _ N R). cbn. rewrite Hattr. cbn.
  split; [reflexivity|]. split.
  - intros [= H]. apply String.eqb_eq. exact H.
  - intros ->. rewrite String.eqb_refl. reflexivity.
Qed.

(** X11. An unregistered bit is equal to nothing but itself: comparing it
    with a value that is not a bit, or with a bit of another identity,
    gives [False] and does not raise. *)
Theorem unregistered_eq_only_itself (u : Bit) (other : PyVal) :
  is_new_style u = true ->
  (forall b, other = VBit b -> ob_id b <> ob_id u) ->
  Bit_eq u other = Ok false.
Proof.
  intros N Hother. rewrite (Bit_eq_new_style _ _ N).
  destruct other as [| | | | |b|]; try reflexivity. cbn.
  destruct (Nat.eqb_spec (ob_id b) (ob_id u)) as [E|_]; [|reflexivity].
  exfalso. exact (Hother b eq_refl E).
Qed.

End CopiesAndPositions.

Section FurtherOnCPython.

Import Sample.
#[local] Existing Instance CPython.runtime.


Lemma Bit_init_in_range_witness :
  - reg_size reg_a <= -1 < reg_size reg_a /\
  Bit_init 7 Qubit (Some reg_a) (VInt (-1))
    = Ok (registered 7 Qubit reg_a (-1 mod reg_size reg_a)) /\
  0 <= -1 mod reg_size reg_a < reg_size reg_a.
Proof.
  assert (H : - reg_size reg_a <= -1 < reg_size reg_a) by (cbn; lia).
  split; [exact H|].
  apply (Bit_init_in_range 7 Qubit reg_a (-1) H).
Defined.


Lemma Bit_init_Ok_shape_witness :
  Bit_init 7 Qubit (Some reg_a) (VInt (-1)) = Ok (registered 7 Qubit reg_a 1) /\
  ob_id (registered 7 Qubit reg_a 1) = 7%nat /\
  ob_type (registered 7 Qubit reg_a 1) = Qubit /\
  slots_consistent (registered 7 Qubit reg_a 1) = true /\
  ((Some reg_a = None /\ VInt (-1) = VNone /\
    registered 7 Qubit reg_a 1 = unregistered 7 Qubit) \/
   (exists (r : Register) (o : Z),
      Some reg_a = Some r /\ py_int (VInt (-1)) = Ok o /\
      registered 7 Qubit reg_a 1 = registered 7 Qubit r (normalized o (reg_size r)) /\
      normalized o (reg_size r) < reg_size r)).
Proof.
  split; [reflexivity|].
  apply (Bit_init_Ok_shape 7 Qubit (Some reg_a) (VInt (-1))). reflexivity.
Defined.

Lemma Bit_eq_iff_same_repr_witness :
  Bit_init 1 Qubit (Some reg_a) (VInt 0) = Ok (registered 1 Qubit reg_a 0) /\
  Bit_init 2 Qubit (Some reg_b) (VInt 1) = Ok (registered 2 Qubit reg_b 1) /\
  (exists s1 s2, Bit_repr (registered 1 Qubit reg_a 0) = Ok s1 /\
                 Bit_repr (registered 2 Qubit reg_b 1) = Ok s2) /\
  (Bit_eq (registered 1 Qubit reg_a 0) (VBit (registered 2 Qubit reg_b 1)) = Ok true
   <-> Bit_repr (registered 1 Qubit reg_a 0) = Bit_repr (registered 2 Qubit reg_b 1)).
Proof.
  split; [reflexivity|]. split; [reflexivity|].
  apply (Bit_eq_iff_same_repr 1 2 Qubit Qubit reg_a reg_b (VInt 0) (VInt 1));
    reflexivity.
Defined.

Lemma Bit_eq_equivalence_witness :
  slots_consistent (registered 1 Qubit reg_a 0) = true /\
  slots_consistent (registered 2 Qubit reg_b 0) = true /\
  slots_consistent (unregistered 3 Qubit) = true /\
  Bit_eq (registered 1 Qubit reg_a 0) (VBit (registered 1 Qubit reg_a 0)) = Ok true /\
  Bit_eq (registered 1 Qubit reg_a 0) (VBit (registered 2 Qubit reg_b 0))
    = Bit_eq (registered 2 Qubit reg_b 0) (VBit (registered 1 Qubit reg_a 0)) /\
  (Bit_eq (registered 1 Qubit reg_a 0) (VBit (registered 2 Qubit reg_b 0)) = Ok true ->
   Bit_eq (registered 2 Qubit reg_b 0) (VBit (unregistered 3 Qubit)) = Ok true ->
   Bit_eq (registered 1 Qubit reg_a 0) (VBit (unregistered 3 Qubit)) = Ok true).
Proof.
  split; [reflexivity|]. split; [reflexivity|]. split; [reflexivity|].
  apply (Bit_eq_equivalence (registered 1 Qubit reg_a 0)
           (registered 2 Qubit reg_b 0) (unregistered 3 Qubit));
    try reflexivity; unfold same_object_if_same_id; cbn; discriminate.
Defined.

Lemma Bit_deepcopy_equal_to_original_witness :
  slots_consistent (registered 1 Qubit reg_a 0) = true /\
  exists (b' : Bit) (memo' : Memo) (heap' : nat),
    Bit_deepcopy (registered 1 Qubit reg_a 0) empty_memo 200 = Ok (b', memo', heap') /\
    Bit_eq b' (VBit (registered 1 Qubit reg_a 0)) = Ok true /\
    Bit_eq (registered 1 Qubit reg_a 0) (VBit b') = Ok true /\
    Bit_hash b' = Bit_hash (registered 1 Qubit reg_a 0) /\
    Bit_repr b' = Bit_repr (registered 1 Qubit reg_a 0) /\
    slots_consistent b' = true.
Proof.
  split; [reflexivity|].
  apply (Bit_deepcopy_equal_to_original (registered 1 Qubit reg_a 0) empty_memo 200).
  reflexivity.
Defined.

Lemma Bit_eq_iff_same_index_witness :
  Bit_init 1 Qubit (Some reg_a) (VInt 0) = Ok (registered 1 Qubit reg_a 0) /\
  Bit_init 2 Qubit (Some reg_b) (VInt 1) = Ok (registered 2 Qubit reg_b 1) /\
  tp_name Qubit = tp_name Qubit /\
  reg_str reg_a = reg_str reg_b /\
  (Bit_eq (registered 1 Qubit reg_a 0) (VBit (registered 2 Qubit reg_b 1)) = Ok true
   <-> _index (registered 1 Qubit reg_a 0) = _index (registered 2 Qubit reg_b 1)) /\
  (_index (registered 1 Qubit reg_a 0) <> _index (registered 2 Qubit reg_b 1) ->
   Bit_eq (registered 1 Qubit reg_a 0) (VBit (registered 2 Qubit reg_b 1)) = Ok false).
Proof.
  split; [reflexivity|]. split; [reflexivity|].
  split; [reflexivity|]. split; [reflexivity|].
  apply (Bit_eq_iff_same_index 1 2 Qubit Qubit reg_a reg_b (VInt 0) (VInt 1));
    reflexivity.
Defined.

Lemma Bit_hash_contract_witness :
  Bit_init 1 Qubit (Some reg_a) (VInt 1) = Ok (registered 1 Qubit reg_a 1) /\
  Bit_init 2 Qubit (Some reg_c) (VInt (-1)) = Ok (registered 2 Qubit reg_c 1) /\
  reg_str reg_a = reg_str reg_c /\
  reg_hash reg_a = reg_hash reg_c /\
  Bit_eq (registered 1 Qubit reg_a 1) (VBit (registered 2 Qubit reg_c 1)) = Ok true /\
  Bit_hash (registered 1 Qubit reg_a 1) = Bit_hash (registered 2 Qubit reg_c 1).
Proof.
  split; [reflexivity|]. split; [reflexivity|].
  split; [reflexivity|]. split; [reflexivity|]. split; [reflexivity|].
  apply (Bit_hash_contract 1 2 Qubit Qubit reg_a reg_c (VInt 1) (VInt (-1)));
    reflexivity.
Defined.

Lemma Bit_eq_object_with_repr_witness :
  is_new_style (registered 1 Qubit reg_a 0) = false /\
  _repr (registered 1 Qubit reg_a 0) = Some "Qubit(QuantumRegister(2, 'q'), 0)" /\
  Bit_eq (registered 1 Qubit reg_a 0)
         (VObj 9 Clbit [("_repr", VStr "Qubit(QuantumRegister(2, 'q'), 0)")])
    = Ok true.
Proof.
  split; [reflexivity|]. split; [reflexivity|].
  apply (proj2 (Bit_eq_object_with_repr (registered 1 Qubit reg_a 0)
                  "Qubit(QuantumRegister(2, 'q'), 0)"
                  "Qubit(QuantumRegister(2, 'q'), 0)" 9 Clbit
                  [("_repr", VStr "Qubit(QuantumRegister(2, 'q'), 0)")]
                  eq_refl eq_refl eq_refl)).
  reflexivity.
Defined.

Lemma unregistered_eq_only_itself_witness :
  is_new_style (unregistered 3 Qubit) = true /\
  Bit_eq (unregistered 3 Qubit) (VBit (registered 1 Qubit reg_a 0)) = Ok false.
Proof.
  split; [reflexivity|].
  apply (unregistered_eq_only_itself (unregistered 3 Qubit)
           (VBit (registered 1 Qubit reg_a 0)) eq_refl).
  intros b [= <-]. cbn. discriminate.
Defined.

End FurtherOnCPython.
